(** * getauxval_wrapper: a defensive probe around the weak symbol getauxval

    Shallow embedding of [src/c/getauxval-wrapper.c].  The C function talks
    to three pieces of mutable state: the thread's [errno], the caller's
    output location [*result], and whatever the platform facility keeps for
    itself.  They are gathered in a [world]; the function is a computation
    in a small state monad that also records, in program order, each access
    the wrapper itself performs. *)

From Stdlib Require Import ZArith List.
Import ListNotations.
Local Open Scope Z_scope.

(** ** Platform constants *)

(** [ENOENT] of <errno.h>.  The translation unit is guarded by
    [#ifdef __linux__]; on Linux the constant is 2 on every architecture
    (asm-generic/errno-base.h). *)
Definition ENOENT : Z := 2.

(** ** Accesses performed by the wrapper *)

(** What the body of [getauxval_wrapper] does to the outside, one event per
    C-level access.  [unsigned long] and [int] values are carried as [Z]:
    the wrapper performs no arithmetic on them, only copies and
    comparisons. *)
Inductive event : Type :=
| EvCall (key : Z)          (* getauxval(key) was invoked *)
| EvErrnoRead (seen : Z)    (* errno was read and held [seen] *)
| EvErrnoWrite (v : Z)      (* errno = v *)
| EvStore (v : Z).          (* *result = v *)

Definition is_call (e : event) : bool :=
  match e with EvCall _ => true | _ => false end.

Definition is_errno_access (e : event) : bool :=
  match e with EvErrnoRead _ | EvErrnoWrite _ => true | _ => false end.

Definition is_store (e : event) : bool :=
  match e with EvStore _ => true | _ => false end.

Definition invokes_facility (l : list event) : bool := existsb is_call l.
Definition touches_errno (l : list event) : bool := existsb is_errno_access l.
Definition writes_result (l : list event) : bool := existsb is_store l.

(** ** The four result codes *)

(** The taxonomy of the header comment, and the [int32_t] each one is
    reported as. *)
Inductive outcome : Type :=
| FacilityAbsent
| KeyNotFound
| UnexpectedError
| Success.

Definition code_of (o : outcome) : Z :=
  match o with
  | Success => 1
  | KeyNotFound => 0
  | FacilityAbsent => -1
  | UnexpectedError => -2
  end.

Section Probe.

(** State private to the platform facility (the auxiliary vector, or
    anything else an implementation of [getauxval] consults or changes).
    The wrapper never looks at it. *)
Context {Env : Type}.

(** ** State *)

Record world : Type := mkWorld {
  errno : Z;     (* the error indicator *)
  cell : Z;      (* the object [result] points to *)
  env : Env      (* the facility's own state *)
}.

(** What one invocation of the facility yields: the [unsigned long] it
    returns, the value it leaves in [errno], and its new private state. *)
Record reply : Type := mkReply {
  r_value : Z;
  r_errno : Z;
  r_env : Env
}.

(** [unsigned long getauxval(unsigned long type)]: it receives the key by
    value, may read and write [errno], and has no handle on the caller's
    [result] object. *)
Definition facility : Type := Z -> Z -> Env -> reply.

(** The reply the facility gives when called with [key] in world [w]. *)
Definition answer (f : facility) (key : Z) (w : world) : reply :=
  f key (errno w) (env w).

(** ** Computations *)

(** A computation maps the world at entry to a value, the world at exit
    and the accesses made in between. *)
Definition M (A : Type) : Type := world -> A * world * list event.

Definition ret {A : Type} (a : A) : M A := fun w => (a, w, []).

Definition bind {A B : Type} (c : M A) (k : A -> M B) : M B :=
  fun w =>
    let '(a, w1, l1) := c w in
    let '(b, w2, l2) := k a w1 in
    (b, w2, l1 ++ l2).

Definition rc {A : Type} (x : A * world * list event) : A := fst (fst x).
Definition post {A : Type} (x : A * world * list event) : world := snd (fst x).
Definition log {A : Type} (x : A * world * list event) : list event := snd x.

(** [getauxval(key)] *)
Definition call (f : facility) (key : Z) : M Z :=
  fun w =>
    let r := answer f key w in
    (r_value r,
     {| errno := r_errno r; cell := cell w; env := r_env r |},
     [EvCall key]).

(** [errno] as an rvalue *)
Definition load_errno : M Z :=
  fun w => (errno w, w, [EvErrnoRead (errno w)]).

(** [errno = v;] *)
Definition store_errno (v : Z) : M unit :=
  fun w => (tt, {| errno := v; cell := cell w; env := env w |},
            [EvErrnoWrite v]).

(** [*result = v;] *)
Definition store_result (v : Z) : M unit :=
  fun w => (tt, {| errno := errno w; cell := v; env := env w |},
            [EvStore v]).

End Probe.

Arguments world : clear implicits.
Arguments reply : clear implicits.
Arguments facility : clear implicits.
Arguments M : clear implicits.

Declare Scope probe_scope.
Delimit Scope probe_scope with probe.
Notation "x <- c ;; k" := (bind c (fun x => k))
  (at level 61, c at next level, right associativity) : probe_scope.
Notation "c ;; k" := (bind c (fun _ => k))
  (at level 61, right associativity) : probe_scope.

Section Wrapper.

Context {Env : Type}.
Local Open Scope probe_scope.

(** [int32_t getauxval_wrapper(unsigned long key, unsigned long *result)].

    The weak symbol is an [option]: [None] is the null address the linker
    leaves when nothing defines [getauxval].  [result] is the [cell] of
    the world (a valid object distinct from [errno], as the C types
    require).  The early [return]s of the C text become the branches of
    the conditionals. *)
Definition getauxval_wrapper (getauxval : option (facility Env)) (key : Z)
  : M Env Z :=
  match getauxval with
  | None => ret (-1)
  | Some f =>
      auxval <- call f key ;;
      e <- load_errno ;;
      if e =? ENOENT then
        store_errno 0 ;;
        ret 0
      else
        e' <- load_errno ;;
        if negb (e' =? 0) then
          store_errno 0 ;;
          ret (-2)
        else
          store_result auxval ;;
          ret 1
  end.

(** ** The outcome as the specification words it

    Absent symbol: facility unavailable.  Otherwise the indicator is
    inspected right after the call: "entry not found", any other error,
    or success. *)
Definition spec_outcome (getauxval : option (facility Env)) (key : Z)
           (w : world Env) : outcome :=
  match getauxval with
  | None => FacilityAbsent
  | Some f =>
      let e := r_errno (answer f key w) in
      if e =? ENOENT then KeyNotFound
      else if e =? 0 then Success
      else UnexpectedError
  end.

(** The call that follows a first call with the same key: it starts in
    the world the first one left. *)
Definition second_call (getauxval : option (facility Env)) (key : Z)
           (w : world Env) : Z * world Env * list event :=
  getauxval_wrapper getauxval key (post (getauxval_wrapper getauxval key w)).

(** A facility is deterministic at [key] when the value it returns there
    depends on nothing but the key. *)
Definition deterministic_at (f : facility Env) (key : Z) : Prop :=
  forall e1 e2 s1 s2, r_value (f key e1 s1) = r_value (f key e2 s2).

(** The facility succeeds at [key] in world [w]: its call leaves the
    indicator at 0. *)
Definition succeeds_in (f : facility Env) (key : Z) (w : world Env) : Prop :=
  r_errno (answer f key w) = 0.

End Wrapper.

(** ** Stand-ins for the platform facility *)

(** The behaviour glibc documents since 2.19: a key of the auxiliary vector
    yields its value and [errno] keeps the value it had; any other key
    yields 0 with [errno] set to [ENOENT]. *)
Definition glibc_like (auxv : list (Z * Z)) : facility unit :=
  fun key e _ =>
    match find (fun kv => fst kv =? key) auxv with
    | Some kv => {| r_value := snd kv; r_errno := e; r_env := tt |}
    | None => {| r_value := 0; r_errno := ENOENT; r_env := tt |}
    end.

(** A facility of some later libc that fails with an error other than
    [ENOENT] (here 22, EINVAL). *)
Definition failing_with (err : Z) : facility unit :=
  fun _ _ _ => {| r_value := 0; r_errno := err; r_env := tt |}.

(** A facility that is not deterministic: it hands out its private counter
    and steps it. *)
Definition ticking : facility Z :=
  fun _ _ n => {| r_value := n; r_errno := 0; r_env := n + 1 |}.

(** AT_HWCAP = 16, AT_PAGESZ = 6. *)
Definition sample_auxv : list (Z * Z) := [(6, 4096); (16, 3219913727)].

Definition w0 (e c : Z) : world unit := {| errno := e; cell := c; env := tt |}.

Example run_absent :
  getauxval_wrapper None 16 (w0 0 7) = (-1, w0 0 7, []).
Proof. reflexivity. Qed.

Example run_found :
  getauxval_wrapper (Some (glibc_like sample_auxv)) 16 (w0 0 7)
  = (1, w0 0 3219913727,
     [EvCall 16; EvErrnoRead 0; EvErrnoRead 0; EvStore 3219913727]).
Proof. reflexivity. Qed.

Example run_not_found :
  getauxval_wrapper (Some (glibc_like sample_auxv)) 99 (w0 0 7)
  = (0, w0 0 7, [EvCall 99; EvErrnoRead 2; EvErrnoWrite 0]).
Proof. reflexivity. Qed.

Example run_other_error :
  getauxval_wrapper (Some (failing_with 22)) 16 (w0 0 7)
  = (-2, w0 0 7, [EvCall 16; EvErrnoRead 22; EvErrnoRead 22; EvErrnoWrite 0]).
Proof. reflexivity. Qed.

Example run_ticking_twice :
  let w := {| errno := 0; cell := 7; env := 40 |} in
  cell (post (getauxval_wrapper (Some ticking) 16 w)) = 40
  /\ cell (post (second_call (Some ticking) 16 w)) = 41.
Proof. split; reflexivity. Qed.

(** * Properties *)

Section Branches.

Context {Env : Type}.
Implicit Types (f : facility Env) (g : option (facility Env))
               (key : Z) (w : world Env).

(** ** One equation per exit of the C function *)

Lemma wrapper_absent key w :
  getauxval_wrapper (@None (facility Env)) key w = (-1, w, []).
Proof. reflexivity. Qed.

Lemma wrapper_not_found f key w :
  r_errno (answer f key w) = ENOENT ->
  getauxval_wrapper (Some f) key w
  = (0,
     {| errno := 0; cell := cell w; env := r_env (answer f key w) |},
     [EvCall key; EvErrnoRead ENOENT; EvErrnoWrite 0]).
Proof.
  intros Hnf. unfold getauxval_wrapper, bind, call, load_errno.
  cbn [errno]. rewrite Hnf. reflexivity.
Qed.

Lemma wrapper_other_error f key w :
  r_errno (answer f key w) <> ENOENT ->
  r_errno (answer f key w) <> 0 ->
  getauxval_wrapper (Some f) key w
  = (-2,
     {| errno := 0; cell := cell w; env := r_env (answer f key w) |},
     [EvCall key; EvErrnoRead (r_errno (answer f key w));
      EvErrnoRead (r_errno (answer f key w)); EvErrnoWrite 0]).
Proof.
  intros Hnf Herr. unfold getauxval_wrapper, bind, call, load_errno.
  apply Z.eqb_neq in Hnf, Herr.
  cbn [errno]. rewrite Hnf. cbn [errno]. rewrite Herr. reflexivity.
Qed.

Lemma wrapper_success f key w :
  r_errno (answer f key w) = 0 ->
  getauxval_wrapper (Some f) key w
  = (1,
     {| errno := 0; cell := r_value (answer f key w);
        env := r_env (answer f key w) |},
     [EvCall key; EvErrnoRead 0; EvErrnoRead 0;
      EvStore (r_value (answer f key w))]).
Proof.
  intros Hok. unfold getauxval_wrapper, bind, call, load_errno.
  cbn [errno]. rewrite Hok. reflexivity.
Qed.

Lemma enoent_reports_not_found_aux f key w :
  r_errno (answer f key w) = ENOENT ->
  rc (getauxval_wrapper (Some f) key w) = 0
  /\ cell (post (getauxval_wrapper (Some f) key w)) = cell w.
Proof. intros Hnf. rewrite (wrapper_not_found f key w Hnf). now split. Qed.

Lemma code_of_inj (o1 o2 : outcome) : code_of o1 = code_of o2 -> o1 = o2.
Proof. destruct o1, o2; cbn; intros H; congruence. Qed.

End Branches.

(** Split on the value the facility leaves in [errno] and rewrite the run
    with the equation of the exit taken. *)
Ltac by_exit f key w :=
  let Hnf := fresh "Hnf" in
  let Hok := fresh "Hok" in
  destruct (Z.eq_dec (r_errno (answer f key w)) ENOENT) as [Hnf | Hnf];
  [ rewrite (wrapper_not_found f key w Hnf)
  | destruct (Z.eq_dec (r_errno (answer f key w)) 0) as [Hok | Hok];
    [ rewrite (wrapper_success f key w Hok)
    | rewrite (wrapper_other_error f key w Hnf Hok) ] ].

Section Claims.

Context {Env : Type}.
Implicit Types (f : facility Env) (g : option (facility Env))
               (key : Z) (w : world Env).

(** C1 (as amended): on the success, key-not-found and unexpected-error
    exits, that is whenever the code returned is not -1, [errno] is 0
    after [getauxval_wrapper] returns; on the facility-unavailable exit
    [errno] holds the value it had at entry. *)
Theorem errno_cleared_unless_absent g key w :
  (rc (getauxval_wrapper g key w) <> -1 ->
   errno (post (getauxval_wrapper g key w)) = 0)
  /\ (rc (getauxval_wrapper g key w) = -1 ->
      errno (post (getauxval_wrapper g key w)) = errno w).
Proof.
  destruct g as [f | ].
  - by_exit f key w; cbn; split; intros H; (reflexivity || discriminate H).
  - rewrite wrapper_absent. cbn. split; intros H; [now elim H | reflexivity].
Qed.

(** C2: the output location is written exactly when the code returned is
    1; when the code is 0, -1 or -2 it holds the value it had at entry. *)
Theorem result_written_iff_success g key w :
  (writes_result (log (getauxval_wrapper g key w)) = true
   <-> rc (getauxval_wrapper g key w) = 1)
  /\ (rc (getauxval_wrapper g key w) = 0
      \/ rc (getauxval_wrapper g key w) = -1
      \/ rc (getauxval_wrapper g key w) = -2 ->
      cell (post (getauxval_wrapper g key w)) = cell w).
Proof.
  destruct g as [f | ]; [by_exit f key w | rewrite wrapper_absent]; cbn;
    (split; [split; intros H; (reflexivity || discriminate H) | ]);
    intros [H | [H | H]]; (reflexivity || discriminate H).
Qed.

(** C3: with the weak symbol unresolved, whatever the key, the wrapper
    returns -1, the output location keeps its value and the facility is
    not invoked (no call is made, its state is the one at entry). *)
Theorem absent_facility_reports_unavailable key w :
  rc (getauxval_wrapper (@None (facility Env)) key w) = -1
  /\ cell (post (getauxval_wrapper (@None (facility Env)) key w)) = cell w
  /\ invokes_facility (log (getauxval_wrapper (@None (facility Env)) key w))
     = false
  /\ env (post (getauxval_wrapper (@None (facility Env)) key w)) = env w.
Proof. rewrite wrapper_absent. repeat split. Qed.

(** C4: facility present and [errno] equal to ENOENT after its call: the
    wrapper returns 0, the output location keeps its value, and [errno]
    is 0 after the return. *)
Theorem enoent_reports_not_found f key w :
  r_errno (answer f key w) = ENOENT ->
  rc (getauxval_wrapper (Some f) key w) = 0
  /\ cell (post (getauxval_wrapper (Some f) key w)) = cell w
  /\ errno (post (getauxval_wrapper (Some f) key w)) = 0.
Proof.
  intros Hnf. rewrite (wrapper_not_found f key w Hnf). repeat split.
Qed.

(** C5: facility present and [errno] nonzero and different from ENOENT
    after its call: the wrapper returns -2, the output location keeps its
    value, and [errno] is 0 after the return. *)
Theorem other_error_reports_unexpected f key w :
  r_errno (answer f key w) <> 0 ->
  r_errno (answer f key w) <> ENOENT ->
  rc (getauxval_wrapper (Some f) key w) = -2
  /\ cell (post (getauxval_wrapper (Some f) key w)) = cell w
  /\ errno (post (getauxval_wrapper (Some f) key w)) = 0.
Proof.
  intros Herr Hnf. rewrite (wrapper_other_error f key w Hnf Herr).
  repeat split.
Qed.

(** C6: facility present and [errno] equal to 0 after its call: the
    wrapper returns 1 and the output location holds the value the
    facility returned for the key. *)
Theorem success_stores_value f key w :
  r_errno (answer f key w) = 0 ->
  rc (getauxval_wrapper (Some f) key w) = 1
  /\ cell (post (getauxval_wrapper (Some f) key w))
     = r_value (answer f key w).
Proof.
  intros Hok. rewrite (wrapper_success f key w Hok). split; reflexivity.
Qed.

(** C7: every run of the wrapper returns, with the code of exactly one of
    the four outcomes, namely the one the taxonomy assigns to the state of
    the facility and of the indicator after its call; and there is no retry
    on any exit: a resolved facility is invoked once, with the caller's
    key, and an unresolved one is never invoked. *)
Theorem four_exclusive_outcomes g key w :
  (exists! o, rc (getauxval_wrapper g key w) = code_of o)
  /\ rc (getauxval_wrapper g key w) = code_of (spec_outcome g key w)
  /\ (rc (getauxval_wrapper g key w) = 1
      \/ rc (getauxval_wrapper g key w) = 0
      \/ rc (getauxval_wrapper g key w) = -1
      \/ rc (getauxval_wrapper g key w) = -2)
  /\ filter is_call (log (getauxval_wrapper g key w))
     = match g with
       | Some _ => [EvCall key]
       | None => []
       end.
Proof.
  assert (Hcode : rc (getauxval_wrapper g key w)
                  = code_of (spec_outcome g key w)).
  { destruct g as [f | ]; [ | reflexivity ].
    unfold spec_outcome. by_exit f key w; cbn [rc fst].
    - rewrite Hnf. reflexivity.
    - rewrite Hok. reflexivity.
    - apply Z.eqb_neq in Hnf, Hok. rewrite Hnf, Hok. reflexivity. }
  split; [ | split; [exact Hcode | split ] ].
  - exists (spec_outcome g key w). split; [exact Hcode | ].
    intros o' Ho'. apply code_of_inj. congruence.
  - rewrite Hcode. destruct (spec_outcome g key w); cbn; auto.
  - destruct g as [f | ]; [ | reflexivity ].
    by_exit f key w; reflexivity.
Qed.

(** C8: when the facility is present, deterministic at the key, and
    succeeds there in both calls (each leaves [errno] at 0), two calls in
    a row both return 1 and both store the same value in the output
    location. *)
Theorem repeated_call_same_result f key w :
  deterministic_at f key ->
  succeeds_in f key w ->
  succeeds_in f key (post (getauxval_wrapper (Some f) key w)) ->
  rc (getauxval_wrapper (Some f) key w) = 1
  /\ rc (second_call (Some f) key w) = 1
  /\ In (EvStore (r_value (answer f key w)))
        (log (getauxval_wrapper (Some f) key w))
  /\ In (EvStore (r_value (answer f key w)))
        (log (second_call (Some f) key w))
  /\ cell (post (getauxval_wrapper (Some f) key w))
     = r_value (answer f key w)
  /\ cell (post (second_call (Some f) key w))
     = cell (post (getauxval_wrapper (Some f) key w)).
Proof.
  intros Hdet H1 H2. unfold second_call.
  set (w1 := post (getauxval_wrapper (Some f) key w)) in *.
  assert (Hv : r_value (answer f key w1) = r_value (answer f key w))
    by apply Hdet.
  rewrite (wrapper_success f key w1 H2), Hv.
  subst w1. rewrite (wrapper_success f key w H1).
  repeat split; cbn; auto.
Qed.

(** C9: with the weak symbol unresolved, [errno] after the return is the
    value it had at entry, and the wrapper neither read nor wrote it. *)
Theorem absent_facility_leaves_errno key w :
  errno (post (getauxval_wrapper (@None (facility Env)) key w)) = errno w
  /\ touches_errno (log (getauxval_wrapper (@None (facility Env)) key w))
     = false.
Proof. rewrite wrapper_absent. split; reflexivity. Qed.

(** C10: the first access the wrapper makes is the facility call, so no
    write to [errno] precedes it; hence, when [errno] is ENOENT at entry
    and the call leaves it as it was, the wrapper returns 0 and the output
    location keeps its value, whatever value the facility returned. *)
Theorem stale_enoent_masks_value f key w :
  (exists tl, log (getauxval_wrapper (Some f) key w) = EvCall key :: tl)
  /\ (errno w = ENOENT ->
      r_errno (answer f key w) = errno w ->
      rc (getauxval_wrapper (Some f) key w) = 0
      /\ cell (post (getauxval_wrapper (Some f) key w)) = cell w).
Proof.
  split.
  - by_exit f key w; eexists; reflexivity.
  - intros Hentry Hkept.
    destruct (enoent_reports_not_found_aux f key w) as [Hrc Hcell];
      [congruence | ]. now split.
Qed.

End Claims.

(** * Concrete runs of the claims *)

(** C1 fails as stated: with the symbol unresolved and [errno] holding 22
    (EINVAL) at entry, the wrapper returns -1 and [errno] is still 22. *)
Lemma errno_survives_absent_facility :
  rc (getauxval_wrapper (@None (facility unit)) 16 (w0 22 7)) = -1
  /\ errno (post (getauxval_wrapper (@None (facility unit)) 16 (w0 22 7))) = 22
  /\ errno (post (getauxval_wrapper (@None (facility unit)) 16 (w0 22 7))) <> 0.
Proof. repeat split. cbn. discriminate. Qed.

Lemma errno_cleared_unless_absent_witness :
  rc (getauxval_wrapper (Some (failing_with 22)) 16 (w0 22 7)) <> -1
  /\ errno (post (getauxval_wrapper (Some (failing_with 22)) 16 (w0 22 7))) = 0.
Proof.
  assert (H : rc (getauxval_wrapper (Some (failing_with 22)) 16 (w0 22 7))
              <> -1) by (cbn; discriminate).
  split; [exact H | ].
  exact (proj1 (errno_cleared_unless_absent (Some (failing_with 22)) 16
                  (w0 22 7)) H).
Defined.

Lemma result_written_iff_success_witness :
  rc (getauxval_wrapper (Some (glibc_like sample_auxv)) 99 (w0 0 7)) = 0
  /\ cell (post (getauxval_wrapper (Some (glibc_like sample_auxv)) 99
                   (w0 0 7))) = 7.
Proof.
  split; [reflexivity | ].
  apply (proj2 (result_written_iff_success (Some (glibc_like sample_auxv)) 99
                  (w0 0 7))).
  left. reflexivity.
Defined.

Lemma enoent_reports_not_found_witness :
  r_errno (answer (glibc_like sample_auxv) 99 (w0 0 7)) = ENOENT
  /\ rc (getauxval_wrapper (Some (glibc_like sample_auxv)) 99 (w0 0 7)) = 0
  /\ cell (post (getauxval_wrapper (Some (glibc_like sample_auxv)) 99
                   (w0 0 7))) = 7
  /\ errno (post (getauxval_wrapper (Some (glibc_like sample_auxv)) 99
                    (w0 0 7))) = 0.
Proof.
  split; [reflexivity | ].
  apply (enoent_reports_not_found (glibc_like sample_auxv) 99 (w0 0 7)).
  reflexivity.
Defined.

Lemma other_error_reports_unexpected_witness :
  r_errno (answer (failing_with 22) 16 (w0 0 7)) = 22
  /\ rc (getauxval_wrapper (Some (failing_with 22)) 16 (w0 0 7)) = -2
  /\ cell (post (getauxval_wrapper (Some (failing_with 22)) 16 (w0 0 7))) = 7
  /\ errno (post (getauxval_wrapper (Some (failing_with 22)) 16 (w0 0 7))) = 0.
Proof.
  split; [reflexivity | ].
  apply (other_error_reports_unexpected (failing_with 22) 16 (w0 0 7));
    cbn; discriminate.
Defined.

Lemma success_stores_value_witness :
  r_errno (answer (glibc_like sample_auxv) 16 (w0 0 7)) = 0
  /\ rc (getauxval_wrapper (Some (glibc_like sample_auxv)) 16 (w0 0 7)) = 1
  /\ cell (post (getauxval_wrapper (Some (glibc_like sample_auxv)) 16
                   (w0 0 7))) = 3219913727.
Proof.
  split; [reflexivity | ].
  apply (success_stores_value (glibc_like sample_auxv) 16 (w0 0 7)).
  reflexivity.
Defined.

Lemma repeated_call_same_result_witness :
  deterministic_at (glibc_like sample_auxv) 6
  /\ rc (getauxval_wrapper (Some (glibc_like sample_auxv)) 6 (w0 0 7)) = 1
  /\ rc (second_call (Some (glibc_like sample_auxv)) 6 (w0 0 7)) = 1
  /\ cell (post (getauxval_wrapper (Some (glibc_like sample_auxv)) 6
                   (w0 0 7))) = 4096
  /\ cell (post (second_call (Some (glibc_like sample_auxv)) 6 (w0 0 7)))
     = 4096.
Proof.
  assert (Hdet : deterministic_at (glibc_like sample_auxv) 6)
    by (intros e1 e2 s1 s2; reflexivity).
  split; [exact Hdet | ].
  destruct (repeated_call_same_result (glibc_like sample_auxv) 6 (w0 0 7)
              Hdet eq_refl eq_refl) as (H1 & H2 & _ & _ & H5 & H6).
  split; [exact H1 | split; [exact H2 | split; [exact H5 | ] ] ].
  rewrite H6. exact H5.
Defined.

Lemma stale_enoent_masks_value_witness :
  errno (w0 ENOENT 7) = ENOENT
  /\ r_value (answer (glibc_like sample_auxv) 16 (w0 ENOENT 7)) = 3219913727
  /\ rc (getauxval_wrapper (Some (glibc_like sample_auxv)) 16 (w0 ENOENT 7)) = 0
  /\ cell (post (getauxval_wrapper (Some (glibc_like sample_auxv)) 16
                   (w0 ENOENT 7))) = 7.
Proof.
  split; [reflexivity | split; [reflexivity | ] ].
  apply (proj2 (stale_enoent_masks_value (glibc_like sample_auxv) 16
                  (w0 ENOENT 7))); reflexivity.
Defined.

(** The same facility and the same key give three different codes according
    to the value [errno] holds at entry. *)
Example code_follows_entry_errno :
  rc (getauxval_wrapper (Some (glibc_like sample_auxv)) 16 (w0 0 7)) = 1
  /\ rc (getauxval_wrapper (Some (glibc_like sample_auxv)) 16 (w0 ENOENT 7)) = 0
  /\ rc (getauxval_wrapper (Some (glibc_like sample_auxv)) 16 (w0 22 7)) = -2.
Proof. repeat split. Qed.

(** Without determinism two successful calls may store different values. *)
Example ticking_is_not_deterministic : ~ deterministic_at ticking 16.
Proof. intros H. specialize (H 0 0 0 1). discriminate H. Qed.


(** * Further properties of the wrapper *)

Section Discipline.

Context {Env : Type}.
Implicit Types (f : facility Env) (g : option (facility Env))
               (key : Z) (w : world Env).

(** The code of a run with the facility present, read off the value the
    facility left in [errno]. *)
Lemma rc_by_errno f key w :
  rc (getauxval_wrapper (Some f) key w)
  = if r_errno (answer f key w) =? ENOENT then 0
    else if r_errno (answer f key w) =? 0 then 1 else -2.
Proof.
  by_exit f key w; cbn [rc fst].
  - rewrite Hnf. reflexivity.
  - rewrite Hok. reflexivity.
  - apply Z.eqb_neq in Hnf, Hok. rewrite Hnf, Hok. reflexivity.
Qed.

Lemma errno_zero_when_present f key w :
  errno (post (getauxval_wrapper (Some f) key w)) = 0.
Proof. by_exit f key w; reflexivity. Qed.

Lemma env_after_present f key w :
  env (post (getauxval_wrapper (Some f) key w)) = r_env (answer f key w).
Proof. by_exit f key w; reflexivity. Qed.

(** X1: a resolved facility is invoked exactly once per call of the wrapper,
    with the caller's key (there is no retry on any exit); an unresolved one
    is never invoked. *)
Theorem facility_called_once g key w :
  filter is_call (log (getauxval_wrapper g key w))
  = match g with
    | Some _ => [EvCall key]
    | None => []
    end.
Proof.
  destruct g as [f | ]; [ | reflexivity ].
  by_exit f key w; reflexivity.
Qed.

(** X2: the only value the wrapper ever assigns to [errno] is 0, and it
    assigns it exactly on the two error exits (codes 0 and -2); the success
    exit and the facility-unavailable exit contain no assignment to
    [errno]. *)
Theorem errno_written_only_on_error_exits g key w :
  (forall v, In (EvErrnoWrite v) (log (getauxval_wrapper g key w)) -> v = 0)
  /\ (In (EvErrnoWrite 0) (log (getauxval_wrapper g key w))
      <-> rc (getauxval_wrapper g key w) = 0
          \/ rc (getauxval_wrapper g key w) = -2).
Proof.
  destruct g as [f | ]; [by_exit f key w | rewrite wrapper_absent];
    cbn [log rc fst snd In];
    (split; [intros v Hin | split; intros H]);
    intuition congruence.
Qed.

(** X3: each code is returned only under its own condition: -1 only when
    the symbol is unresolved, 0 only when [errno] is ENOENT after the call,
    -2 only when it is neither 0 nor ENOENT, 1 only when it is 0. *)
Theorem code_tells_condition g key w :
  (rc (getauxval_wrapper g key w) = -1 <-> g = None)
  /\ (rc (getauxval_wrapper g key w) = 0
      <-> exists f, g = Some f /\ r_errno (answer f key w) = ENOENT)
  /\ (rc (getauxval_wrapper g key w) = -2
      <-> exists f, g = Some f /\ r_errno (answer f key w) <> 0
                    /\ r_errno (answer f key w) <> ENOENT)
  /\ (rc (getauxval_wrapper g key w) = 1
      <-> exists f, g = Some f /\ r_errno (answer f key w) = 0).
Proof.
  destruct g as [f | ].
  - rewrite rc_by_errno.
    assert (Hsome : forall P : facility Env -> Prop,
               (exists f', Some f = Some f' /\ P f') <-> P f).
    { intros P. split.
      - intros (f' & Hf & HP). injection Hf as <-. exact HP.
      - intros HP. exists f. split; [reflexivity | exact HP]. }
    rewrite !Hsome.
    destruct (Z.eqb_spec (r_errno (answer f key w)) ENOENT) as [Hnf | Hnf];
      [ | destruct (Z.eqb_spec (r_errno (answer f key w)) 0) as [Hok | Hok] ].
    + rewrite Hnf. unfold ENOENT.
      split; [ | split; [ | split ] ]; (split; intros H);
        try discriminate H; try reflexivity.
      destruct H as [_ H]. now elim H.
    + rewrite Hok. unfold ENOENT.
      split; [ | split; [ | split ] ]; (split; intros H);
        try discriminate H; try reflexivity.
      destruct H as [H _]. now elim H.
    + split; [ | split; [ | split ] ]; (split; intros H);
        try discriminate H; try contradiction; try reflexivity.
      split; assumption.
  - rewrite wrapper_absent. cbn [rc fst].
    split; [ | split; [ | split ] ]; (split; intros H);
      try reflexivity; try discriminate H.
    all: destruct H as (f' & Hf & _); discriminate Hf.
Qed.

(** X4: a stale [errno] spoils one call at most.  When the facility leaves
    [errno] as it finds it at the key (what glibc does for a key of the
    auxiliary vector), the call that follows a first call returns 1 and
    stores the facility's value, whatever [errno] held before the first. *)
Theorem second_call_recovers f key w :
  (forall e s, r_errno (f key e s) = e) ->
  rc (second_call (Some f) key w) = 1
  /\ cell (post (second_call (Some f) key w))
     = r_value (answer f key (post (getauxval_wrapper (Some f) key w)))
  /\ errno (post (second_call (Some f) key w)) = 0.
Proof.
  intros Hkeep. unfold second_call.
  set (w1 := post (getauxval_wrapper (Some f) key w)).
  assert (Hok : r_errno (answer f key w1) = 0).
  { unfold answer. rewrite Hkeep. apply errno_zero_when_present. }
  rewrite (wrapper_success f key w1 Hok). repeat split.
Qed.

(** X5: the wrapper stores to the output location at most once, and what it
    stores is the value the facility returned for the key; that value is
    what the location holds at exit. *)
Theorem stores_only_facility_value g key w :
  (length (filter is_store (log (getauxval_wrapper g key w))) <= 1)%nat
  /\ (forall v, In (EvStore v) (log (getauxval_wrapper g key w)) ->
      exists f, g = Some f
                /\ v = r_value (answer f key w)
                /\ cell (post (getauxval_wrapper g key w)) = v).
Proof.
  destruct g as [f | ]; [by_exit f key w | rewrite wrapper_absent];
    cbn [log post fst snd filter is_store length cell In];
    (split; [auto | intros v Hin]).
  - exfalso. intuition discriminate.
  - exists f. intuition (discriminate || congruence).
  - exfalso. intuition discriminate.
  - contradiction.
Qed.

(** X6: when the value the facility leaves in [errno] at the key is the
    same whatever it is called with, two calls in a row return the same
    code, on every exit and not only on success. *)
Theorem repeated_call_same_code f key w c :
  (forall e s, r_errno (f key e s) = c) ->
  rc (second_call (Some f) key w) = rc (getauxval_wrapper (Some f) key w).
Proof.
  intros Hconst. unfold second_call.
  rewrite !rc_by_errno. unfold answer. rewrite !Hconst. reflexivity.
Qed.

(** X7: the wrapper never reads the output location: the code it returns,
    the accesses it makes and the [errno] it leaves are the same whatever
    the location holds at entry, so the caller may pass an object that was
    never initialised. *)
Theorem entry_value_of_result_ignored g key w c :
  rc (getauxval_wrapper g key {| errno := errno w; cell := c; env := env w |})
  = rc (getauxval_wrapper g key w)
  /\ log (getauxval_wrapper g key
            {| errno := errno w; cell := c; env := env w |})
     = log (getauxval_wrapper g key w)
  /\ errno (post (getauxval_wrapper g key
                    {| errno := errno w; cell := c; env := env w |}))
     = errno (post (getauxval_wrapper g key w)).
Proof.
  destruct g as [f | ]; [ | now rewrite !wrapper_absent ].
  set (w' := {| errno := errno w; cell := c; env := env w |}).
  by_exit f key w.
  - rewrite (wrapper_not_found f key w' Hnf). now repeat split.
  - rewrite (wrapper_success f key w' Hok). now repeat split.
  - rewrite (wrapper_other_error f key w' Hnf Hok). now repeat split.
Qed.

End Discipline.

Lemma second_call_recovers_witness :
  (forall e s, r_errno (glibc_like sample_auxv 16 e s) = e)
  /\ rc (getauxval_wrapper (Some (glibc_like sample_auxv)) 16 (w0 ENOENT 7)) = 0
  /\ rc (second_call (Some (glibc_like sample_auxv)) 16 (w0 ENOENT 7)) = 1
  /\ cell (post (second_call (Some (glibc_like sample_auxv)) 16
                   (w0 ENOENT 7))) = 3219913727.
Proof.
  assert (Hkeep : forall e s, r_errno (glibc_like sample_auxv 16 e s) = e)
    by (intros e s; reflexivity).
  split; [exact Hkeep | split; [reflexivity | ] ].
  destruct (second_call_recovers (glibc_like sample_auxv) 16 (w0 ENOENT 7)
              Hkeep) as (H1 & H2 & _).
  split; [exact H1 | ]. rewrite H2. reflexivity.
Defined.

Lemma repeated_call_same_code_witness :
  rc (getauxval_wrapper (Some (failing_with 22)) 16 (w0 0 7)) = -2
  /\ rc (second_call (Some (failing_with 22)) 16 (w0 0 7)) = -2.
Proof.
  split; [reflexivity | ].
  rewrite (repeated_call_same_code (failing_with 22) 16 (w0 0 7) 22
             (fun _ _ => eq_refl)).
  reflexivity.
Defined.
